(** * The CEM 3330 VCA transfer curve of scripts/tools/plot_vca_curve.py

    The script maps a control voltage to a linear gain in three zones
    (cutoff, 10 dB/V logarithmic, soft-knee saturation), next to an ideal
    two-zone curve, and converts both to decibels for plotting.

    Two readings of the same source lines are given.

    - The ideal curve: voltages and gains are real numbers, the data model
      the specification gives them.  Python's [float] arithmetic is read as
      exact arithmetic on [R], [10 ** x] as [Rpower 10 x] and [np.log10] as
      the base-10 logarithm.  Branches, formulas, values within a tolerance
      and local properties of the curve are stated on this reading.

    - The code on doubles (module [Double]): voltages are binary64 floats
      with the rounding, overflow and exceptions of Python's [float].  Only
      the C library's [pow] stays abstract.  Where a statement of the ideal
      curve fails on doubles, the failing input is computed there. *)

From Stdlib Require Import Reals Lra List.
From Stdlib Require PrimFloat.
Import ListNotations.

Open Scope R_scope.

(** ** Module-level calibration constants (lines 13-17) *)

Definition VCA_DB_PER_VOLT : R := 10.
Definition VCA_CUTOFF_VOLTAGE : R := -12.
Definition LINEAR_THRESHOLD : R := 0.
Definition HARD_LIMIT : R := 3.0.
Definition SOFTNESS : R := 2.0.

(** ** [vca_voltage_to_gain] (lines 19-40)

    The two [if ... return] guards become nested conditionals on the
    decidable order of [R]; the local variables keep their names. *)

Definition vca_voltage_to_gain (voltage : R) : R :=
  let soft_zone_width := HARD_LIMIT - LINEAR_THRESHOLD in
  if Rle_dec voltage VCA_CUTOFF_VOLTAGE then 0
  else if Rle_dec voltage LINEAR_THRESHOLD then
    let dB := voltage * VCA_DB_PER_VOLT in
    Rpower 10 (dB / 20)
  else
    let excess_voltage := voltage - LINEAR_THRESHOLD in
    let ratio := excess_voltage / soft_zone_width in
    let compressed_excess :=
      soft_zone_width * ratio / (1 + ratio * SOFTNESS) in
    let saturated_voltage := LINEAR_THRESHOLD + compressed_excess in
    let dB := saturated_voltage * VCA_DB_PER_VOLT in
    Rpower 10 (dB / 20).

(** ** [ideal_voltage_to_gain] (lines 42-47) *)

Definition ideal_voltage_to_gain (voltage : R) : R :=
  if Rle_dec voltage VCA_CUTOFF_VOLTAGE then 0
  else
    let dB := voltage * VCA_DB_PER_VOLT in
    Rpower 10 (dB / 20).

(** ** The local variables of the saturation zone, as functions of the
    voltage (lines 21 and 34-40), and the formula of the logarithmic zone
    (lines 29-30).  [vca_zones] below shows that [vca_voltage_to_gain] is
    built from exactly these. *)

Module Zone.

Definition soft_zone_width : R := HARD_LIMIT - LINEAR_THRESHOLD.

Definition excess_voltage (voltage : R) : R := voltage - LINEAR_THRESHOLD.

Definition ratio (voltage : R) : R :=
  excess_voltage voltage / soft_zone_width.

Definition compressed_excess (voltage : R) : R :=
  soft_zone_width * ratio voltage / (1 + ratio voltage * SOFTNESS).

Definition saturated_voltage (voltage : R) : R :=
  LINEAR_THRESHOLD + compressed_excess voltage.

Definition saturation_dB (voltage : R) : R :=
  saturated_voltage voltage * VCA_DB_PER_VOLT.

Definition saturation_gain (voltage : R) : R :=
  Rpower 10 (saturation_dB voltage / 20).

Definition linear_dB (voltage : R) : R := voltage * VCA_DB_PER_VOLT.

Definition linear_gain (voltage : R) : R :=
  Rpower 10 (linear_dB voltage / 20).

End Zone.

(** The voltage whose logarithmic law gives the gain above the cutoff: the
    input voltage itself up to the threshold (line 29), the saturated
    voltage beyond it (line 37). *)

Definition effective_voltage (voltage : R) : R :=
  if Rle_dec voltage LINEAR_THRESHOLD then voltage
  else Zone.saturated_voltage voltage.

(** ** Decibel conversion (lines 90-91)

    [np.log10] yields a real number only on positive arguments (numpy gives
    [-inf] at zero and [nan] below, with a warning), hence the [option].
    [linear_to_db] is the element expression of both list comprehensions,
    [20 * np.log10(g) if g > 1e-10 else -200]. *)

Definition np_log10 (x : R) : option R :=
  if Rlt_dec 0 x then Some (ln x / ln 10) else None.

Definition linear_to_db (g : R) : option R :=
  if Rgt_dec g 1e-10
  then option_map (fun l => 20 * l) (np_log10 g)
  else Some (-200).

Definition gains_real_db (gains_real : list R) : list (option R) :=
  map linear_to_db gains_real.

Definition gains_ideal_db (gains_ideal : list R) : list (option R) :=
  map linear_to_db gains_ideal.

(** ** The code on binary64 floats

    Python's [float] is an IEEE 754 double: [+], [-] and [*] round to
    nearest and overflow silently to an infinity, [/] raises
    [ZeroDivisionError] on a zero divisor, and the comparisons are false on
    NaN.  The integer constants [10], [-12], [0], [1] and [20] are converted
    to the doubles of the same value when they meet a float.

    [10 ** w] is CPython's [float_pow] at base [10.0]: it answers the
    special exponents itself (a zero gives [1.0], NaN gives NaN, [+inf]
    gives [+inf], [-inf] gives [0.0]) and otherwise calls the C library,
    raising [OverflowError] when the library's result is infinite.  The
    library function is the parameter [pow10]; it is only ever called on a
    finite, non-zero exponent, and above the cutoff that exponent is above
    [-6], so underflow plays no part.

    This is the function as called with a Python [float].  The script
    itself passes numpy scalars, for which an overflowing power returns
    [inf] with a warning where [float] raises; the two agree wherever no
    exception is raised. *)

Module Double.

Import PrimFloat.
#[local] Open Scope float_scope.

Inductive exn : Set :=
| OverflowError
| ZeroDivisionError.

Inductive outcome : Set :=
| Return (x : float)
| Raise (e : exn).

Definition bind (m : outcome) (k : float -> outcome) : outcome :=
  match m with
  | Return x => k x
  | Raise e => Raise e
  end.

#[local] Notation "x <- m ;; k" := (bind m (fun x => k))
  (at level 61, m at next level, right associativity).

Definition py_div (a b : float) : outcome :=
  if b =? 0 then Raise ZeroDivisionError else Return (a / b).

Definition py_pow10 (pow10 : float -> float) (w : float) : outcome :=
  if w =? 0 then Return 1
  else if is_nan w then Return w
  else if is_infinity w then Return (if 0 <? w then infinity else 0)
  else
    let r := pow10 w in
    if is_infinity r then Raise OverflowError else Return r.

Definition VCA_DB_PER_VOLT : float := 10.
Definition VCA_CUTOFF_VOLTAGE : float := -12.
Definition LINEAR_THRESHOLD : float := 0.
Definition HARD_LIMIT : float := 3.0.
Definition SOFTNESS : float := 2.0.

Definition vca_voltage_to_gain
  (pow10 : float -> float) (voltage : float) : outcome :=
  let soft_zone_width := HARD_LIMIT - LINEAR_THRESHOLD in
  if voltage <=? VCA_CUTOFF_VOLTAGE then Return 0
  else if voltage <=? LINEAR_THRESHOLD then
    let dB := voltage * VCA_DB_PER_VOLT in
    w <- py_div dB 20 ;; py_pow10 pow10 w
  else
    let excess_voltage := voltage - LINEAR_THRESHOLD in
    ratio <- py_div excess_voltage soft_zone_width ;;
    compressed_excess <-
      py_div (soft_zone_width * ratio) (1 + ratio * SOFTNESS) ;;
    let saturated_voltage := LINEAR_THRESHOLD + compressed_excess in
    let dB := saturated_voltage * VCA_DB_PER_VOLT in
    w <- py_div dB 20 ;; py_pow10 pow10 w.

Definition ideal_voltage_to_gain
  (pow10 : float -> float) (voltage : float) : outcome :=
  if voltage <=? VCA_CUTOFF_VOLTAGE then Return 0
  else
    let dB := voltage * VCA_DB_PER_VOLT in
    w <- py_div dB 20 ;; py_pow10 pow10 w.





End Double.

(** ** Zone lemmas: which branch the function takes *)

Lemma vca_zones (v : R) :
  vca_voltage_to_gain v =
  if Rle_dec v VCA_CUTOFF_VOLTAGE then 0
  else if Rle_dec v LINEAR_THRESHOLD then Zone.linear_gain v
  else Zone.saturation_gain v.
Proof. reflexivity. Qed.

Lemma vca_cutoff (v : R) :
  v <= VCA_CUTOFF_VOLTAGE -> vca_voltage_to_gain v = 0.
Proof.
  intros Hv. unfold vca_voltage_to_gain.
  destruct (Rle_dec v VCA_CUTOFF_VOLTAGE) as [_ | Hn]; [reflexivity | tauto].
Qed.

Lemma vca_linear (v : R) :
  VCA_CUTOFF_VOLTAGE < v -> v <= LINEAR_THRESHOLD ->
  vca_voltage_to_gain v = Zone.linear_gain v.
Proof.
  intros Hc Hl. rewrite vca_zones.
  destruct (Rle_dec v VCA_CUTOFF_VOLTAGE) as [Hle | _]; [lra |].
  destruct (Rle_dec v LINEAR_THRESHOLD) as [_ | Hn]; [reflexivity | tauto].
Qed.

Lemma vca_saturation (v : R) :
  LINEAR_THRESHOLD < v -> vca_voltage_to_gain v = Zone.saturation_gain v.
Proof.
  intros Hl. rewrite vca_zones.
  assert (VCA_CUTOFF_VOLTAGE < LINEAR_THRESHOLD)
    by (unfold VCA_CUTOFF_VOLTAGE, LINEAR_THRESHOLD; lra).
  destruct (Rle_dec v VCA_CUTOFF_VOLTAGE) as [Hle | _]; [lra |].
  destruct (Rle_dec v LINEAR_THRESHOLD) as [Hle | _]; [lra | reflexivity].
Qed.

Lemma ideal_cutoff (v : R) :
  v <= VCA_CUTOFF_VOLTAGE -> ideal_voltage_to_gain v = 0.
Proof.
  intros Hv. unfold ideal_voltage_to_gain.
  destruct (Rle_dec v VCA_CUTOFF_VOLTAGE) as [_ | Hn]; [reflexivity | tauto].
Qed.

Lemma ideal_above_cutoff (v : R) :
  VCA_CUTOFF_VOLTAGE < v -> ideal_voltage_to_gain v = Zone.linear_gain v.
Proof.
  intros Hv. unfold ideal_voltage_to_gain.
  destruct (Rle_dec v VCA_CUTOFF_VOLTAGE) as [Hle | _]; [lra | reflexivity].
Qed.

(** ** Powers of ten *)

Lemma pow10_pos (x : R) : 0 < Rpower 10 x.
Proof. unfold Rpower. apply exp_pos. Qed.

Lemma pow10_lt (x y : R) : x < y -> Rpower 10 x < Rpower 10 y.
Proof. intros H. apply Rpower_lt; lra. Qed.

Lemma pow10_le (x y : R) : x <= y -> Rpower 10 x <= Rpower 10 y.
Proof. intros H. apply Rle_Rpower; lra. Qed.

Lemma pow10_0 : Rpower 10 0 = 1.
Proof. apply Rpower_O. lra. Qed.

Lemma pow10_nat (n : nat) : Rpower 10 (INR n) = 10 ^ n.
Proof. apply Rpower_pow. lra. Qed.

Lemma pow10_neg_nat (n : nat) : Rpower 10 (- INR n) = / 10 ^ n.
Proof. rewrite Rpower_Ropp, pow10_nat. reflexivity. Qed.

Lemma pow10_half : Rpower 10 (1 / 2) = sqrt 10.
Proof.
  replace (1 / 2) with (/ 2) by lra. apply Rpower_sqrt. lra.
Qed.

(** [10 ^ (3/5)] is the positive fifth root of [1000]. *)
Lemma pow10_three_fifths : Rpower 10 (3 / 5) ^ 5 = 1000.
Proof.
  rewrite <- Rpower_pow by apply pow10_pos.
  rewrite Rpower_mult.
  replace (3 / 5 * INR 5) with (INR 3) by (simpl; lra).
  rewrite pow10_nat. lra.
Qed.

Lemma sqrt10_bounds : 3.16227666 < sqrt 10 < 3.16227866.
Proof.
  split.
  - rewrite <- (sqrt_pow2 3.16227666) by lra.
    apply sqrt_lt_1_alt. lra.
  - rewrite <- (sqrt_pow2 3.16227866) by lra.
    apply sqrt_lt_1_alt. lra.
Qed.

Lemma pow10_three_fifths_bounds :
  3.98107071 < Rpower 10 (3 / 5) < 3.98107271.
Proof.
  pose proof pow10_three_fifths as H5.
  pose proof (pow10_pos (3 / 5)) as Hp.
  split.
  - apply Rnot_le_lt. intros Hle.
    pose proof (pow_incr (Rpower 10 (3 / 5)) 3.98107071 5) as Hi.
    rewrite H5 in Hi. lra.
  - apply Rnot_le_lt. intros Hle.
    pose proof (pow_incr 3.98107271 (Rpower 10 (3 / 5)) 5) as Hi.
    rewrite H5 in Hi. lra.
Qed.

(** ** The knee: closed form and bounds of the saturated voltage *)

Lemma HARD_LIMIT_val : HARD_LIMIT = 3.
Proof. unfold HARD_LIMIT. lra. Qed.

Lemma SOFTNESS_val : SOFTNESS = 2.
Proof. unfold SOFTNESS. lra. Qed.

Lemma soft_zone_width_val : Zone.soft_zone_width = 3.
Proof.
  unfold Zone.soft_zone_width, LINEAR_THRESHOLD. rewrite HARD_LIMIT_val. lra.
Qed.


Lemma ratio_closed (v : R) : Zone.ratio v = v / 3.
Proof.
  unfold Zone.ratio, Zone.excess_voltage. rewrite soft_zone_width_val.
  unfold LINEAR_THRESHOLD. lra.
Qed.


Lemma saturated_voltage_closed (v : R) :
  0 <= v -> Zone.saturated_voltage v = 3 * v / (3 + 2 * v).
Proof.
  intros Hv.
  unfold Zone.saturated_voltage, Zone.compressed_excess.
  rewrite ratio_closed, soft_zone_width_val, SOFTNESS_val.
  unfold LINEAR_THRESHOLD. field. lra.
Qed.

Lemma saturated_voltage_pos (v : R) :
  0 < v -> 0 < Zone.saturated_voltage v.
Proof.
  intros Hv. rewrite saturated_voltage_closed by lra.
  apply Rdiv_lt_0_compat; lra.
Qed.

Lemma saturated_voltage_below_input (v : R) :
  0 < v -> Zone.saturated_voltage v < v.
Proof.
  intros Hv. rewrite saturated_voltage_closed by lra.
  apply (Rmult_lt_reg_r (3 + 2 * v)); [lra |].
  unfold Rdiv. rewrite Rmult_assoc, Rinv_l by lra. nra.
Qed.

Lemma saturated_voltage_ceiling (v : R) :
  0 < v -> Zone.saturated_voltage v < 3 / 2.
Proof.
  intros Hv. rewrite saturated_voltage_closed by lra.
  apply (Rmult_lt_reg_r (3 + 2 * v)); [lra |].
  unfold Rdiv at 1. rewrite Rmult_assoc, Rinv_l by lra. lra.
Qed.


Lemma saturation_gain_exponent (v : R) :
  Zone.saturation_gain v = Rpower 10 (Zone.saturated_voltage v / 2).
Proof.
  unfold Zone.saturation_gain, Zone.saturation_dB, VCA_DB_PER_VOLT.
  f_equal. lra.
Qed.

Lemma linear_gain_exponent (v : R) :
  Zone.linear_gain v = Rpower 10 (v / 2).
Proof.
  unfold Zone.linear_gain, Zone.linear_dB, VCA_DB_PER_VOLT.
  f_equal. lra.
Qed.

(** ** Values at the sample voltages of the specification *)

Lemma vca_at_minus_6 : vca_voltage_to_gain (-6) = 0.001.
Proof.
  rewrite vca_linear, linear_gain_exponent
    by (unfold VCA_CUTOFF_VOLTAGE, LINEAR_THRESHOLD; lra).
  replace (-6 / 2) with (- INR 3) by (simpl; lra).
  rewrite pow10_neg_nat. lra.
Qed.

Lemma vca_at_0 : vca_voltage_to_gain 0 = 1.
Proof.
  rewrite vca_linear, linear_gain_exponent
    by (unfold VCA_CUTOFF_VOLTAGE, LINEAR_THRESHOLD; lra).
  replace (0 / 2) with 0 by lra. apply pow10_0.
Qed.

Lemma vca_at_3 : vca_voltage_to_gain 3.0 = Rpower 10 0.5.
Proof.
  rewrite vca_saturation, saturation_gain_exponent
    by (unfold LINEAR_THRESHOLD; lra).
  rewrite saturated_voltage_closed by lra. f_equal. lra.
Qed.

Lemma vca_at_6 : vca_voltage_to_gain 6.0 = Rpower 10 0.6.
Proof.
  rewrite vca_saturation, saturation_gain_exponent
    by (unfold LINEAR_THRESHOLD; lra).
  rewrite saturated_voltage_closed by lra. f_equal. lra.
Qed.

Lemma knee_steps_at_3 :
  Zone.ratio 3.0 = 1 /\ Zone.compressed_excess 3.0 = 1 /\
  Zone.saturation_dB 3.0 = 10.
Proof.
  assert (Hr : Zone.ratio 3.0 = 1) by (rewrite ratio_closed; lra).
  assert (Hc : Zone.compressed_excess 3.0 = 1).
  { unfold Zone.compressed_excess.
    rewrite Hr, soft_zone_width_val, SOFTNESS_val. lra. }
  repeat split; trivial.
  unfold Zone.saturation_dB, Zone.saturated_voltage.
  rewrite Hc. unfold LINEAR_THRESHOLD, VCA_DB_PER_VOLT. lra.
Qed.

Lemma knee_steps_at_6 :
  Zone.ratio 6.0 = 2 /\ Zone.compressed_excess 6.0 = 1.2 /\
  Zone.saturation_dB 6.0 = 12.
Proof.
  assert (Hr : Zone.ratio 6.0 = 2) by (rewrite ratio_closed; lra).
  assert (Hc : Zone.compressed_excess 6.0 = 1.2).
  { unfold Zone.compressed_excess.
    rewrite Hr, soft_zone_width_val, SOFTNESS_val. lra. }
  repeat split; trivial.
  unfold Zone.saturation_dB, Zone.saturated_voltage.
  rewrite Hc. unfold LINEAR_THRESHOLD, VCA_DB_PER_VOLT. lra.
Qed.

(** ** Claims about single zones *)

(** C4. Cutoff zone: at or below the cutoff voltage ([-12]) both the
    saturating curve and the ideal curve return exactly [0]. *)
Theorem cutoff_zone_is_zero (v : R) :
  v <= VCA_CUTOFF_VOLTAGE ->
  vca_voltage_to_gain v = 0 /\ ideal_voltage_to_gain v = 0.
Proof.
  intros Hv. split; [apply vca_cutoff | apply ideal_cutoff]; exact Hv.
Qed.

Lemma cutoff_zone_is_zero_witness :
  -50 <= VCA_CUTOFF_VOLTAGE /\
  vca_voltage_to_gain (-50) = 0 /\ ideal_voltage_to_gain (-50) = 0.
Proof.
  assert (H : -50 <= VCA_CUTOFF_VOLTAGE) by (unfold VCA_CUTOFF_VOLTAGE; lra).
  split; [exact H | apply (cutoff_zone_is_zero (-50) H)].
Defined.

(** C5. Linear-log zone: strictly above the cutoff and up to the linear
    threshold ([-12 < v <= 0]) the gain is [10 ^ (v * dbPerVolt / 20)];
    in particular the gain at [-6] is [0.001] and the gain at [0] is [1],
    both within [1e-9]. *)
Theorem linear_log_zone :
  (forall v : R,
      VCA_CUTOFF_VOLTAGE < v -> v <= LINEAR_THRESHOLD ->
      vca_voltage_to_gain v = Rpower 10 (v * VCA_DB_PER_VOLT / 20)) /\
  vca_voltage_to_gain (-6) = 0.001 /\
  Rabs (vca_voltage_to_gain (-6) - 0.001) <= 1e-9 /\
  vca_voltage_to_gain 0 = 1.0 /\
  Rabs (vca_voltage_to_gain 0 - 1.0) <= 1e-9.
Proof.
  split; [| rewrite vca_at_minus_6, vca_at_0; repeat split].
  - intros v Hc Hl. rewrite vca_linear by assumption. reflexivity.
  - rewrite Rminus_diag, Rabs_R0. lra.
  - lra.
  - replace (1 - 1.0) with 0 by lra. rewrite Rabs_R0. lra.
Qed.

Lemma linear_log_zone_witness :
  vca_voltage_to_gain (-3) = Rpower 10 (-3 * VCA_DB_PER_VOLT / 20).
Proof.
  apply (proj1 linear_log_zone);
    unfold VCA_CUTOFF_VOLTAGE, LINEAR_THRESHOLD; lra.
Defined.

(** C1. Saturation zone: above the linear threshold the gain follows the
    stated steps (ratio, compressed excess, saturated voltage, decibels,
    power of ten); at [3.0] the ratio is [1], the compressed excess [1],
    the level [10] dB and the gain [10 ^ 0.5], at [6.0] they are [2],
    [1.2], [12] dB and [10 ^ 0.6]; the gains lie within [1e-6] of
    [3.16227766] and [3.98107171]. *)
Theorem saturation_zone_steps :
  (forall v : R,
      LINEAR_THRESHOLD < v ->
      let softZoneWidth := HARD_LIMIT - LINEAR_THRESHOLD in
      let excessVoltage := v - LINEAR_THRESHOLD in
      let ratio := excessVoltage / softZoneWidth in
      let compressedExcess := softZoneWidth * ratio / (1 + ratio * SOFTNESS) in
      let saturatedVoltage := LINEAR_THRESHOLD + compressedExcess in
      vca_voltage_to_gain v =
      Rpower 10 (saturatedVoltage * VCA_DB_PER_VOLT / 20)) /\
  (Zone.ratio 3.0 = 1 /\ Zone.compressed_excess 3.0 = 1 /\
   Zone.saturation_dB 3.0 = 10 /\
   vca_voltage_to_gain 3.0 = Rpower 10 0.5 /\
   Rabs (vca_voltage_to_gain 3.0 - 3.16227766) <= 1e-6) /\
  (Zone.ratio 6.0 = 2 /\ Zone.compressed_excess 6.0 = 1.2 /\
   Zone.saturation_dB 6.0 = 12 /\
   vca_voltage_to_gain 6.0 = Rpower 10 0.6 /\
   Rabs (vca_voltage_to_gain 6.0 - 3.98107171) <= 1e-6).
Proof.
  split; [| split].
  - intros v Hv. cbv zeta. rewrite vca_saturation by assumption. reflexivity.
  - destruct knee_steps_at_3 as (Hr & Hc & Hd).
    repeat split; trivial; [apply vca_at_3 |].
    rewrite vca_at_3. replace 0.5 with (1 / 2) by lra. rewrite pow10_half.
    pose proof sqrt10_bounds. apply Rabs_le. lra.
  - destruct knee_steps_at_6 as (Hr & Hc & Hd).
    repeat split; trivial; [apply vca_at_6 |].
    rewrite vca_at_6. replace 0.6 with (3 / 5) by lra.
    pose proof pow10_three_fifths_bounds. apply Rabs_le. lra.
Qed.

Lemma saturation_zone_steps_witness :
  vca_voltage_to_gain 1.5 =
  Rpower 10
    ((LINEAR_THRESHOLD +
      (HARD_LIMIT - LINEAR_THRESHOLD) *
      ((1.5 - LINEAR_THRESHOLD) / (HARD_LIMIT - LINEAR_THRESHOLD)) /
      (1 + (1.5 - LINEAR_THRESHOLD) / (HARD_LIMIT - LINEAR_THRESHOLD)
           * SOFTNESS))
     * VCA_DB_PER_VOLT / 20).
Proof.
  apply (proj1 saturation_zone_steps). unfold LINEAR_THRESHOLD. lra.
Defined.

(** ** Bounds and order *)

(** The exponent of ten that the gain uses above the cutoff: half the
    voltage up to the threshold, half the saturated voltage beyond it. *)
Lemma vca_above_cutoff (v : R) :
  VCA_CUTOFF_VOLTAGE < v ->
  exists s : R,
    vca_voltage_to_gain v = Rpower 10 (s / 2) /\
    (v <= 0 -> s = v) /\ (0 < v -> s = Zone.saturated_voltage v).
Proof.
  intros Hc. destruct (Rle_dec v LINEAR_THRESHOLD) as [Hl | Hl].
  - exists v. rewrite vca_linear, linear_gain_exponent by assumption.
    unfold LINEAR_THRESHOLD in Hl. repeat split; trivial. lra.
  - apply Rnot_le_lt in Hl. exists (Zone.saturated_voltage v).
    rewrite vca_saturation, saturation_gain_exponent by assumption.
    unfold LINEAR_THRESHOLD in Hl. repeat split; trivial. lra.
Qed.











(** ** Continuity at the threshold, jump at the cutoff *)

Lemma ln10_pos : 0 < ln 10.
Proof. rewrite <- ln_1. apply ln_increasing; lra. Qed.

(** [t |-> 10 ^ t] is continuous at [0], in epsilon-delta form. *)
Lemma pow10_near_0 (eps : R) :
  0 < eps ->
  exists d : R, 0 < d /\ forall t : R, Rabs t < d -> Rabs (Rpower 10 t - 1) < eps.
Proof.
  intros Heps.
  destruct (derivable_continuous_pt exp 0 (derivable_pt_exp 0) eps Heps)
    as (alp & Halp & Hexp).
  simpl in Hexp. unfold Rdist in Hexp. rewrite exp_0 in Hexp.
  pose proof ln10_pos as Hln.
  exists (alp / ln 10). split; [apply Rdiv_lt_0_compat; lra |].
  intros t Ht. unfold Rpower.
  destruct (Req_dec (t * ln 10) 0) as [Hz | Hnz].
  - rewrite Hz, exp_0, Rminus_diag, Rabs_R0. exact Heps.
  - apply Hexp. split.
    + split; [exact I | intros Heq; apply Hnz; symmetry; exact Heq].
    + rewrite Rminus_0_r, Rabs_mult, (Rabs_pos_eq (ln 10)) by lra.
      apply (Rmult_lt_compat_r (ln 10)) in Ht; [| exact Hln].
      unfold Rdiv in Ht. rewrite Rmult_assoc, Rinv_l, Rmult_1_r in Ht by lra.
      exact Ht.
Qed.

Lemma vca_continuous_at_threshold :
  continuity_pt vca_voltage_to_gain LINEAR_THRESHOLD.
Proof.
  unfold continuity_pt, continue_in, limit1_in, limit_in, LINEAR_THRESHOLD.
  simpl. unfold Rdist. rewrite vca_at_0. intros eps Heps.
  destruct (pow10_near_0 eps Heps) as (d & Hd & Hpow).
  exists (Rmin 12 d). split; [apply Rmin_glb_lt; lra |].
  intros x [_ Hx]. rewrite Rminus_0_r in Hx.
  assert (Hx12 : Rabs x < 12) by (eapply Rlt_le_trans; [exact Hx | apply Rmin_l]).
  assert (Hxd : Rabs x < d) by (eapply Rlt_le_trans; [exact Hx | apply Rmin_r]).
  apply Rabs_def2 in Hx12. apply Rabs_def2 in Hxd.
  assert (Hc : VCA_CUTOFF_VOLTAGE < x) by (unfold VCA_CUTOFF_VOLTAGE; lra).
  destruct (vca_above_cutoff x Hc) as (s & -> & Hlin & Hsat).
  apply Hpow. apply Rabs_def1.
  - destruct (Rle_dec x 0) as [H0 | H0].
    + rewrite (Hlin H0). lra.
    + apply Rnot_le_lt in H0. rewrite (Hsat H0).
      pose proof (saturated_voltage_below_input x H0). lra.
  - destruct (Rle_dec x 0) as [H0 | H0].
    + rewrite (Hlin H0). lra.
    + apply Rnot_le_lt in H0. rewrite (Hsat H0).
      pose proof (saturated_voltage_pos x H0). lra.
Qed.

Lemma linear_gain_at_cutoff : Zone.linear_gain VCA_CUTOFF_VOLTAGE = 1e-6.
Proof.
  rewrite linear_gain_exponent. unfold VCA_CUTOFF_VOLTAGE.
  replace (-12 / 2) with (- INR 6) by (simpl; lra).
  rewrite pow10_neg_nat. lra.
Qed.

Lemma vca_above_jump (v : R) :
  VCA_CUTOFF_VOLTAGE < v -> 1e-6 < vca_voltage_to_gain v.
Proof.
  intros Hc. rewrite <- linear_gain_at_cutoff, linear_gain_exponent.
  destruct (vca_above_cutoff v Hc) as (s & -> & Hlin & Hsat).
  apply pow10_lt. unfold VCA_CUTOFF_VOLTAGE in *.
  destruct (Rle_dec v 0) as [H0 | H0].
  - rewrite (Hlin H0). lra.
  - apply Rnot_le_lt in H0. rewrite (Hsat H0).
    pose proof (saturated_voltage_pos v H0). lra.
Qed.

(** C6. Continuity at the linear/saturation boundary: at the linear
    threshold the ratio is [0], the saturated voltage is the threshold
    itself, the saturation formula and the linear-log formula give the same
    value [10 ^ (linearThreshold * dbPerVolt / 20) = 1], and the gain is
    continuous there. *)
Theorem threshold_continuity :
  Zone.ratio LINEAR_THRESHOLD = 0 /\
  Zone.saturated_voltage LINEAR_THRESHOLD = LINEAR_THRESHOLD /\
  Zone.saturation_gain LINEAR_THRESHOLD =
    Rpower 10 (LINEAR_THRESHOLD * VCA_DB_PER_VOLT / 20) /\
  Zone.linear_gain LINEAR_THRESHOLD =
    Rpower 10 (LINEAR_THRESHOLD * VCA_DB_PER_VOLT / 20) /\
  vca_voltage_to_gain LINEAR_THRESHOLD = 1 /\
  continuity_pt vca_voltage_to_gain LINEAR_THRESHOLD.
Proof.
  assert (Hr : Zone.ratio LINEAR_THRESHOLD = 0)
    by (rewrite ratio_closed; unfold LINEAR_THRESHOLD; lra).
  assert (Hs : Zone.saturated_voltage LINEAR_THRESHOLD = LINEAR_THRESHOLD).
  { unfold LINEAR_THRESHOLD. rewrite saturated_voltage_closed by lra. lra. }
  repeat split; trivial.
  - unfold Zone.saturation_gain, Zone.saturation_dB. rewrite Hs. reflexivity.
  - unfold LINEAR_THRESHOLD. apply vca_at_0.
  - apply vca_continuous_at_threshold.
Qed.

(** C7. Hard gate: the gain is [0] at the cutoff [-12], the linear-log
    formula would give [10 ^ -6] there, every voltage above the cutoff has
    a gain strictly greater than [10 ^ -6], and so the gain is not
    continuous at the cutoff. *)
Theorem cutoff_jump :
  vca_voltage_to_gain VCA_CUTOFF_VOLTAGE = 0 /\
  Rpower 10 (VCA_CUTOFF_VOLTAGE * VCA_DB_PER_VOLT / 20) = 1e-6 /\
  (forall v : R, VCA_CUTOFF_VOLTAGE < v -> 1e-6 < vca_voltage_to_gain v) /\
  ~ continuity_pt vca_voltage_to_gain VCA_CUTOFF_VOLTAGE.
Proof.
  assert (H0 : vca_voltage_to_gain VCA_CUTOFF_VOLTAGE = 0)
    by (apply vca_cutoff; lra).
  repeat split.
  - exact H0.
  - apply linear_gain_at_cutoff.
  - apply vca_above_jump.
  - intros Hcont.
    unfold continuity_pt, continue_in, limit1_in, limit_in in Hcont.
    simpl in Hcont. unfold Rdist in Hcont. rewrite H0 in Hcont.
    destruct (Hcont 1e-6 ltac:(lra)) as (alp & Halp & Hnear).
    specialize (Hnear (VCA_CUTOFF_VOLTAGE + alp / 2)).
    pose proof (vca_above_jump (VCA_CUTOFF_VOLTAGE + alp / 2) ltac:(lra)) as Hj.
    rewrite Rminus_0_r in Hnear.
    assert (Hlt : Rabs (vca_voltage_to_gain (VCA_CUTOFF_VOLTAGE + alp / 2))
                  < 1e-6).
    { apply Hnear. split; [split; [exact I | lra] |].
      replace (VCA_CUTOFF_VOLTAGE + alp / 2 - VCA_CUTOFF_VOLTAGE)
        with (alp / 2) by lra.
      rewrite Rabs_pos_eq by lra. lra. }
    rewrite Rabs_pos_eq in Hlt by lra. lra.
Qed.

Lemma cutoff_jump_witness : 1e-6 < vca_voltage_to_gain (-11).
Proof.
  apply (proj1 (proj2 (proj2 cutoff_jump))). unfold VCA_CUTOFF_VOLTAGE. lra.
Defined.

(** ** The compression effect *)



(** ** Decibel conversion *)

Lemma np_log10_pos (x : R) : 0 < x -> np_log10 x = Some (ln x / ln 10).
Proof.
  intros Hx. unfold np_log10.
  destruct (Rlt_dec 0 x) as [_ | Hn]; [reflexivity | tauto].
Qed.

Lemma np_log10_undefined (x : R) : x <= 0 -> np_log10 x = None.
Proof.
  intros Hx. unfold np_log10.
  destruct (Rlt_dec 0 x) as [Hp | _]; [lra | reflexivity].
Qed.

(** C10. Decibel conversion: a gain at or below the floor [1e-10] maps to
    the fixed value [-200]; any other gain is positive, so its logarithm is
    defined, and maps to [20 * log10 g].  Hence the conversion always
    yields a real number (the logarithm is never taken at zero or below). *)
Theorem linear_to_db_cases (g : R) :
  (g <= 1e-10 -> linear_to_db g = Some (-200)) /\
  (1e-10 < g ->
   0 < g /\ np_log10 g = Some (ln g / ln 10) /\
   linear_to_db g = Some (20 * (ln g / ln 10))) /\
  (exists d : R, linear_to_db g = Some d).
Proof.
  assert (Hlo : g <= 1e-10 -> linear_to_db g = Some (-200)).
  { intros Hg. unfold linear_to_db.
    destruct (Rgt_dec g 1e-10) as [Hgt | _]; [unfold Rgt in Hgt; lra |].
    reflexivity. }
  assert (Hhi : 1e-10 < g -> linear_to_db g = Some (20 * (ln g / ln 10))).
  { intros Hg. unfold linear_to_db.
    destruct (Rgt_dec g 1e-10) as [_ | Hn]; [| unfold Rgt in Hn; tauto].
    rewrite np_log10_pos by lra. reflexivity. }
  repeat split.
  - exact Hlo.
  - lra.
  - apply np_log10_pos. lra.
  - apply Hhi. assumption.
  - destruct (Rle_dec g 1e-10) as [Hg | Hg].
    + eexists. apply Hlo, Hg.
    + eexists. apply Hhi. apply Rnot_le_lt, Hg.
Qed.

Lemma linear_to_db_cases_witness :
  linear_to_db 0 = Some (-200) /\
  linear_to_db 1 = Some (20 * (ln 1 / ln 10)).
Proof.
  split.
  - apply (proj1 (linear_to_db_cases 0)). lra.
  - apply (proj1 (proj2 (linear_to_db_cases 1))). lra.
Defined.

(** * Further properties of the curves *)

Lemma vca_effective (v : R) :
  VCA_CUTOFF_VOLTAGE < v ->
  vca_voltage_to_gain v = Rpower 10 (effective_voltage v / 2).
Proof.
  intros Hc. unfold effective_voltage.
  destruct (Rle_dec v LINEAR_THRESHOLD) as [Hl | Hl].
  - rewrite vca_linear, linear_gain_exponent by assumption. reflexivity.
  - apply Rnot_le_lt in Hl.
    rewrite vca_saturation, saturation_gain_exponent by assumption.
    reflexivity.
Qed.

Lemma ideal_exponent (v : R) :
  VCA_CUTOFF_VOLTAGE < v -> ideal_voltage_to_gain v = Rpower 10 (v / 2).
Proof.
  intros Hc. rewrite ideal_above_cutoff by assumption.
  apply linear_gain_exponent.
Qed.

(** ** Decibels of the curves *)

Lemma floor_is_power : 1e-10 = Rpower 10 (- INR 10).
Proof. rewrite pow10_neg_nat. lra. Qed.

Lemma log10_pow10 (x : R) : ln (Rpower 10 x) / ln 10 = x.
Proof.
  pose proof ln10_pos. unfold Rpower. rewrite ln_exp. field. lra.
Qed.

Lemma linear_to_db_above_floor (g : R) :
  1e-10 < g -> linear_to_db g = Some (20 * (ln g / ln 10)).
Proof.
  intros Hg. unfold linear_to_db.
  destruct (Rgt_dec g 1e-10) as [_ | Hn]; [| unfold Rgt in Hn; tauto].
  rewrite np_log10_pos by lra. reflexivity.
Qed.

Lemma linear_to_db_at_floor (g : R) :
  g <= 1e-10 -> linear_to_db g = Some (-200).
Proof.
  intros Hg. unfold linear_to_db.
  destruct (Rgt_dec g 1e-10) as [Hgt | _]; [unfold Rgt in Hgt; lra |].
  reflexivity.
Qed.

(** The decibels of a power of ten above the floor are twenty times the
    exponent. *)
Lemma linear_to_db_pow10 (x : R) :
  -10 < x -> linear_to_db (Rpower 10 x) = Some (20 * x).
Proof.
  intros Hx. rewrite linear_to_db_above_floor, log10_pow10; [reflexivity |].
  rewrite floor_is_power. apply pow10_lt. simpl. lra.
Qed.

(** Above the cutoff both decibel curves stay above [-120] dB. *)
Lemma decibels_above_cutoff (v : R) :
  VCA_CUTOFF_VOLTAGE < v ->
  exists dr di : R,
    linear_to_db (vca_voltage_to_gain v) = Some dr /\
    linear_to_db (ideal_voltage_to_gain v) = Some di /\
    -120 < dr < 15 /\ -120 < di.
Proof.
  intros Hc. exists (20 * (effective_voltage v / 2)), (20 * (v / 2)).
  rewrite vca_effective, ideal_exponent by assumption.
  unfold VCA_CUTOFF_VOLTAGE in Hc.
  assert (He : -12 < effective_voltage v < 3 / 2).
  { unfold effective_voltage.
    destruct (Rle_dec v LINEAR_THRESHOLD) as [Hl | Hl];
      unfold LINEAR_THRESHOLD in Hl; [lra |].
    apply Rnot_le_lt in Hl.
    pose proof (saturated_voltage_pos v Hl).
    pose proof (saturated_voltage_ceiling v Hl). lra. }
  rewrite !linear_to_db_pow10 by lra.
  repeat split; lra.
Qed.

(** X8. The [-200] dB sentinel marks the cutoff zone and nothing else: on
    either curve a voltage is shown at the floor exactly when it is at or
    below the cutoff voltage. *)
Theorem floor_marks_cutoff (v : R) :
  (linear_to_db (vca_voltage_to_gain v) = Some (-200) <->
   v <= VCA_CUTOFF_VOLTAGE) /\
  (linear_to_db (ideal_voltage_to_gain v) = Some (-200) <->
   v <= VCA_CUTOFF_VOLTAGE).
Proof.
  split; split.
  - intros Hf. apply Rnot_lt_le. intros Hc.
    destruct (decibels_above_cutoff v Hc) as (dr & di & Hr & _ & Hb & _).
    rewrite Hr in Hf. injection Hf as ->. lra.
  - intros Hc. rewrite (vca_cutoff v Hc). apply linear_to_db_at_floor. lra.
  - intros Hf. apply Rnot_lt_le. intros Hc.
    destruct (decibels_above_cutoff v Hc) as (dr & di & _ & Hi & _ & Hb).
    rewrite Hi in Hf. injection Hf as ->. lra.
  - intros Hc. rewrite (ideal_cutoff v Hc). apply linear_to_db_at_floor. lra.
Qed.

(** ** The decibel conversion on its own *)

Lemma log10_floor : ln 1e-10 / ln 10 = -10.
Proof.
  rewrite floor_is_power, log10_pow10. simpl. lra.
Qed.

Lemma log10_increasing (g1 g2 : R) :
  0 < g1 -> g1 < g2 -> ln g1 / ln 10 < ln g2 / ln 10.
Proof.
  intros H1 H12. pose proof ln10_pos as Hln.
  apply Rmult_lt_compat_r; [apply Rinv_0_lt_compat, Hln |].
  apply ln_increasing; assumption.
Qed.

(** X9. The conversion never goes below its floor and is non-decreasing:
    for gains [g1 <= g2] it yields decibel values [d1 <= d2], both at least
    [-200]; the floor is the value the logarithmic law itself takes at
    [1e-10]. *)
Theorem linear_to_db_monotone (g1 g2 : R) :
  g1 <= g2 ->
  exists d1 d2 : R,
    linear_to_db g1 = Some d1 /\ linear_to_db g2 = Some d2 /\
    -200 <= d1 <= d2.
Proof.
  intros H12.
  assert (Hfloor : forall g, 1e-10 < g -> -200 < 20 * (ln g / ln 10)).
  { intros g Hg. pose proof (log10_increasing 1e-10 g ltac:(lra) Hg) as Hi.
    rewrite log10_floor in Hi. lra. }
  destruct (Rle_dec g2 1e-10) as [H2 | H2].
  - exists (-200), (-200).
    rewrite !linear_to_db_at_floor by lra. repeat split; lra.
  - apply Rnot_le_lt in H2. destruct (Rle_dec g1 1e-10) as [H1 | H1].
    + exists (-200), (20 * (ln g2 / ln 10)).
      rewrite linear_to_db_at_floor, linear_to_db_above_floor by assumption.
      pose proof (Hfloor g2 H2). repeat split; lra.
    + apply Rnot_le_lt in H1.
      exists (20 * (ln g1 / ln 10)), (20 * (ln g2 / ln 10)).
      rewrite !linear_to_db_above_floor by assumption.
      pose proof (Hfloor g1 H1). repeat split; [lra |].
      destruct H12 as [Hlt | <-]; [| lra].
      pose proof (log10_increasing g1 g2 ltac:(lra) Hlt). lra.
Qed.

Lemma linear_to_db_monotone_witness :
  exists d1 d2 : R,
    linear_to_db 0 = Some d1 /\ linear_to_db 1 = Some d2 /\
    -200 <= d1 <= d2.
Proof. apply linear_to_db_monotone. lra. Defined.

(** ** The knee is smooth *)

(** A derivative at a point depends only on the function near the point. *)
Lemma derivable_pt_lim_local (f g : R -> R) (x l r : R) :
  0 < r ->
  (forall y : R, Rabs (y - x) < r -> f y = g y) ->
  derivable_pt_lim g x l -> derivable_pt_lim f x l.
Proof.
  intros Hr Hfg Hg eps Heps.
  destruct (Hg eps Heps) as (delta & Hdelta).
  assert (Hmin : 0 < Rmin delta r)
    by (apply Rmin_glb_lt; [apply cond_pos | exact Hr]).
  exists (mkposreal (Rmin delta r) Hmin). simpl. intros h Hh Habs.
  assert (Hhd : Rabs h < delta)
    by (eapply Rlt_le_trans; [exact Habs | apply Rmin_l]).
  assert (Hhr : Rabs h < r)
    by (eapply Rlt_le_trans; [exact Habs | apply Rmin_r]).
  rewrite (Hfg (x + h)), (Hfg x).
  - apply Hdelta; assumption.
  - rewrite Rminus_diag, Rabs_R0. exact Hr.
  - replace (x + h - x) with h by lra. exact Hhr.
Qed.

Lemma effective_voltage_at_0 : effective_voltage 0 = 0.
Proof.
  unfold effective_voltage, LINEAR_THRESHOLD.
  destruct (Rle_dec 0 0) as [_ | Hn]; [reflexivity | lra].
Qed.

(** The compression starts with slope one. *)
Lemma effective_voltage_slope : derivable_pt_lim effective_voltage 0 1.
Proof.
  intros eps Heps.
  exists (mkposreal eps Heps). simpl. intros h Hh Habs.
  rewrite Rplus_0_l, effective_voltage_at_0. unfold effective_voltage.
  destruct (Rle_dec h LINEAR_THRESHOLD) as [Hl | Hl];
    unfold LINEAR_THRESHOLD in Hl.
  - replace ((h - 0) / h - 1) with 0 by (field; exact Hh).
    rewrite Rabs_R0. exact Heps.
  - apply Rnot_le_lt in Hl. rewrite saturated_voltage_closed by lra.
    rewrite Rabs_pos_eq in Habs by lra.
    replace ((3 * h / (3 + 2 * h) - 0) / h - 1)
      with (- (2 * h / (3 + 2 * h))) by (field; lra).
    assert (Hq : 0 < 2 * h / (3 + 2 * h) < eps).
    { split; [apply Rdiv_lt_0_compat; lra |].
      apply (Rmult_lt_reg_r (3 + 2 * h)); [lra |].
      unfold Rdiv. rewrite Rmult_assoc, Rinv_l by lra. nra. }
    rewrite Rabs_Ropp, Rabs_pos_eq by lra. lra.
Qed.

Lemma pow10_half_slope :
  derivable_pt_lim (fun t : R => Rpower 10 (t / 2)) 0 (ln 10 / 2).
Proof.
  assert (Hlin : derivable_pt_lim (fun t : R => t / 2 * ln 10) 0 (ln 10 / 2)).
  { intros eps Heps. exists (mkposreal 1 Rlt_0_1). intros h Hh _.
    replace (((0 + h) / 2 * ln 10 - 0 / 2 * ln 10) / h - ln 10 / 2)
      with 0 by (field; exact Hh).
    rewrite Rabs_R0. exact Heps. }
  pose proof (derivable_pt_lim_comp _ exp 0 _ _ Hlin
                (derivable_pt_lim_exp (0 / 2 * ln 10))) as Hc.
  replace (exp (0 / 2 * ln 10) * (ln 10 / 2)) with (ln 10 / 2) in Hc.
  - exact Hc.
  - replace (0 / 2 * ln 10) with 0 by lra. rewrite exp_0. lra.
Qed.

(** X12. The knee is smooth: at the linear threshold the saturating gain
    is differentiable, with the slope [dbPerVolt * ln 10 / 20] that the
    ideal curve has there, so the curves part without a corner. *)
Theorem smooth_knee :
  derivable_pt_lim vca_voltage_to_gain LINEAR_THRESHOLD
                   (VCA_DB_PER_VOLT * ln 10 / 20) /\
  derivable_pt_lim ideal_voltage_to_gain LINEAR_THRESHOLD
                   (VCA_DB_PER_VOLT * ln 10 / 20).
Proof.
  unfold LINEAR_THRESHOLD.
  replace (VCA_DB_PER_VOLT * ln 10 / 20) with (ln 10 / 2)
    by (unfold VCA_DB_PER_VOLT; lra).
  assert (Hnear : forall y : R, Rabs (y - 0) < 12 -> VCA_CUTOFF_VOLTAGE < y).
  { intros y Hy. rewrite Rminus_0_r in Hy. apply Rabs_def2 in Hy.
    unfold VCA_CUTOFF_VOLTAGE. lra. }
  split.
  - apply (derivable_pt_lim_local _
             (comp (fun t : R => Rpower 10 (t / 2)) effective_voltage)
             0 _ 12); [lra | |].
    + intros y Hy. unfold comp. apply vca_effective, Hnear, Hy.
    + replace (ln 10 / 2) with (ln 10 / 2 * 1) by lra.
      apply derivable_pt_lim_comp; [apply effective_voltage_slope |].
      rewrite effective_voltage_at_0. apply pow10_half_slope.
  - apply (derivable_pt_lim_local _ (fun t : R => Rpower 10 (t / 2)) 0 _ 12);
      [lra | | apply pow10_half_slope].
    intros y Hy. apply ideal_exponent, Hnear, Hy.
Qed.

(** * The code on doubles *)

Module DoubleFacts.

Import PrimFloat Double.
#[local] Open Scope float_scope.






(** ** Where the ideal curve and the code part *)





(** ** Edge behaviour of the code *)

(** X15. Non-finite voltages neither raise nor are clamped, whatever the C
    library computes: NaN gives NaN on both curves, [+inf] gives NaN on
    the saturating curve (the compression divides [inf] by [inf]) but
    [+inf] on the ideal one, and [-inf] gives [0] on both. *)
Theorem non_finite_voltages (pow10 : float -> float) :
  vca_voltage_to_gain pow10 nan = Return nan /\
  vca_voltage_to_gain pow10 infinity = Return nan /\
  vca_voltage_to_gain pow10 neg_infinity = Return 0 /\
  ideal_voltage_to_gain pow10 nan = Return nan /\
  ideal_voltage_to_gain pow10 infinity = Return infinity /\
  ideal_voltage_to_gain pow10 neg_infinity = Return 0.
Proof. repeat split; vm_compute; reflexivity. Qed.

(** X16. Up to the linear threshold the two functions are the same
    computation on doubles: for every voltage [v <= LINEAR_THRESHOLD] they
    return the same gain or raise the same exception. *)
Theorem curves_agree_up_to_threshold
  (pow10 : float -> float) (v : float) :
  (v <=? LINEAR_THRESHOLD) = true ->
  vca_voltage_to_gain pow10 v = ideal_voltage_to_gain pow10 v.
Proof.
  intros Hv. unfold vca_voltage_to_gain, ideal_voltage_to_gain.
  cbv zeta. rewrite Hv.
  destruct (v <=? VCA_CUTOFF_VOLTAGE); reflexivity.
Qed.

Lemma curves_agree_up_to_threshold_witness :
  vca_voltage_to_gain (fun _ => 1) (-6) =
  ideal_voltage_to_gain (fun _ => 1) (-6).
Proof. apply curves_agree_up_to_threshold. reflexivity. Defined.

(** X17. The ideal curve never divides by zero: the only exception it can
    raise is [OverflowError], and only above the cutoff, when the C library
    returns an infinity for the exponent [v * 10 / 20]. *)
Theorem ideal_raises_only_overflow
  (pow10 : float -> float) (v : float) (e : exn) :
  ideal_voltage_to_gain pow10 v = Raise e ->
  e = OverflowError /\
  (v <=? VCA_CUTOFF_VOLTAGE) = false /\
  is_infinity (pow10 (v * VCA_DB_PER_VOLT / 20)) = true.
Proof.
  unfold ideal_voltage_to_gain. cbv zeta.
  destruct (v <=? VCA_CUTOFF_VOLTAGE); [discriminate |].
  unfold py_div. change (20 =? 0) with false. cbv iota.
  unfold bind, py_pow10.
  destruct (v * VCA_DB_PER_VOLT / 20 =? 0); [discriminate |].
  destruct (is_nan (v * VCA_DB_PER_VOLT / 20)); [discriminate |].
  destruct (is_infinity (v * VCA_DB_PER_VOLT / 20)); [discriminate |].
  cbv zeta.
  destruct (is_infinity (pow10 (v * VCA_DB_PER_VOLT / 20))) eqn:Hr;
    [| discriminate].
  intros [= <-]. repeat split.
Qed.

Lemma ideal_raises_only_overflow_witness :
  OverflowError = OverflowError /\
  (1 <=? VCA_CUTOFF_VOLTAGE) = false /\
  is_infinity ((fun _ : float => infinity) (1 * VCA_DB_PER_VOLT / 20)) = true.
Proof.
  apply (ideal_raises_only_overflow (fun _ => infinity) 1 OverflowError).
  reflexivity.
Defined.

End DoubleFacts.
